(** * convert_documents.py: a shallow embedding

    The Python module reads a work list from [input/config.ini], converts
    each listed DOCX or PDF document to Markdown through docling, and, when
    docling rejects a PDF for missing page dimensions, rewrites the PDF with
    A4 MediaBoxes ([patch_pdf_mediabox]) and retries once.

    Model overview:
    - Python strings are [string] (ASCII), the few [str] and [pathlib]
      operations the code uses are written out below;
    - a PDF page is a [Page] whose [mediabox] is an optional
      [RectangleObject] [x0 y0 x1 y1] with integer coordinates;
    - the file system is a record [FS]: the contents of each path and the
      way a write to a path fails (if it does);
    - effects (file system, raised exceptions, the observable calls) go
      through a state and exception monad [M] over [St]. *)

From Stdlib Require Import String Ascii List ZArith Bool Lia.
From Stdlib Require DecimalNat.
Import ListNotations.
Open Scope string_scope.

(* ------------------------------------------------------------------ *)
(** ** Python string and path helpers *)

Module Py.

(** Characters removed by [str.strip()] (ASCII whitespace). *)
Definition is_space (c : ascii) : bool :=
  existsb (Ascii.eqb c) [" "; "009"; "010"; "011"; "012"; "013"]%char.

Fixpoint drop_while (p : ascii -> bool) (l : list ascii) : list ascii :=
  match l with
  | [] => []
  | c :: t => if p c then drop_while p t else l
  end.

(** [s.strip(chars)]: remove matching characters at both ends. *)
Definition strip_by (p : ascii -> bool) (s : string) : string :=
  string_of_list_ascii
    (rev (drop_while p (rev (drop_while p (list_ascii_of_string s))))).

(** [s.strip()] *)
Definition strip (s : string) : string := strip_by is_space s.

(** [s.strip(chars)] with [chars] the double-quote character. *)
Definition strip_quotes (s : string) : string :=
  strip_by (fun c => Ascii.eqb c "034"%char) s.

(** [s.startswith(p)] *)
Definition startswith (s p : string) : bool := String.prefix p s.

(** [needle in hay] *)
Fixpoint contains (needle hay : string) : bool :=
  String.prefix needle hay ||
  match hay with
  | EmptyString => false
  | String _ rest => contains needle rest
  end.

Definition ascii_lower (c : ascii) : ascii :=
  let n := nat_of_ascii c in
  if (65 <=? n)%nat && (n <=? 90)%nat then ascii_of_nat (n + 32) else c.

(** [s.lower()] *)
Fixpoint lower (s : string) : string :=
  match s with
  | EmptyString => EmptyString
  | String c rest => String (ascii_lower c) (lower rest)
  end.

(** [str(n)] for a natural number. *)
Fixpoint uint_to_string (d : Decimal.uint) : string :=
  match d with
  | Decimal.Nil => ""
  | Decimal.D0 d => String "0" (uint_to_string d)
  | Decimal.D1 d => String "1" (uint_to_string d)
  | Decimal.D2 d => String "2" (uint_to_string d)
  | Decimal.D3 d => String "3" (uint_to_string d)
  | Decimal.D4 d => String "4" (uint_to_string d)
  | Decimal.D5 d => String "5" (uint_to_string d)
  | Decimal.D6 d => String "6" (uint_to_string d)
  | Decimal.D7 d => String "7" (uint_to_string d)
  | Decimal.D8 d => String "8" (uint_to_string d)
  | Decimal.D9 d => String "9" (uint_to_string d)
  end.

Definition str_nat (n : nat) : string := uint_to_string (Nat.to_uint n).

(** [s.rfind(c)], with [None] for Python's [-1]. *)
Fixpoint rfind_from (c : ascii) (l : list ascii) (i : nat) (found : option nat)
  : option nat :=
  match l with
  | [] => found
  | x :: rest => rfind_from c rest (S i) (if Ascii.eqb x c then Some i else found)
  end.

Definition rfind (c : ascii) (l : list ascii) : option nat := rfind_from c l 0 None.

(** [PurePath.name]: the last component (path separators are ['/']). *)
Definition path_name (p : string) : string :=
  let l := list_ascii_of_string p in
  match rfind "/"%char l with
  | Some i => string_of_list_ascii (skipn (S i) l)
  | None => p
  end.

(** [PurePath.suffix]:
    [i = name.rfind('.'); return name[i:] if 0 < i < len(name) - 1 else ''] *)
Definition path_suffix (p : string) : string :=
  let name := list_ascii_of_string (path_name p) in
  match rfind "."%char name with
  | Some i =>
      if (0 <? i)%nat && (i <? length name - 1)%nat
      then string_of_list_ascii (skipn i name) else ""
  | None => ""
  end.

(** [PurePath.stem]: the name without its suffix. *)
Definition path_stem (p : string) : string :=
  let name := list_ascii_of_string (path_name p) in
  match rfind "."%char name with
  | Some i =>
      if (0 <? i)%nat && (i <? length name - 1)%nat
      then string_of_list_ascii (firstn i name) else path_name p
  | None => path_name p
  end.

(** [Path(a) / b]: an absolute [b] replaces [a]. *)
Definition path_join (a b : string) : string :=
  if String.eqb b "" then a
  else if startswith b "/" then b
  else a ++ "/" ++ b.

End Py.

(* ------------------------------------------------------------------ *)
(** ** PDF pages (PyPDF2) *)

(** [RectangleObject([x0, y0, x1, y1])]: [left = self[0]], [bottom = self[1]],
    [right = self[2]], [top = self[3]]; corners are not normalised. *)
Record Rect := mkRect { left : Z; bottom : Z; right : Z; top : Z }.

(** [width = right - left], [height = top - bottom] *)
Definition width (r : Rect) : Z := (right r - left r)%Z.
Definition height (r : Rect) : Z := (top r - bottom r)%Z.

(** A page: its MediaBox ([None] when the page has none) and the rest of
    its content, which the repair never touches. *)
Record Page := mkPage { mediabox : option Rect; page_content : string }.

(** [page.mediabox.lower_left = (0, 0); page.mediabox.upper_right = (595, 842)] *)
Definition set_a4_mediabox (page : Page) : Page :=
  {| mediabox := Some (mkRect 0 0 595 842); page_content := page_content page |}.

(** [not page.mediabox or page.mediabox.width == 0 or page.mediabox.height == 0] *)
Definition lacks_mediabox (page : Page) : bool :=
  match mediabox page with
  | None => true
  | Some r => Z.eqb (width r) 0 || Z.eqb (height r) 0
  end.

(** The loop of [patch_pdf_mediabox] over [reader.pages]: [writer] holds the
    pages added so far ([writer.add_page]). *)
Fixpoint patch_loop (pages : list Page) (writer : list Page) (pages_patched : nat)
  : list Page * nat :=
  match pages with
  | [] => (writer, pages_patched)
  | page :: rest =>
      let '(page', pages_patched') :=
        if lacks_mediabox page then (set_a4_mediabox page, S pages_patched)
        else (page, pages_patched) in
      patch_loop rest (writer ++ [page']) pages_patched'
  end.

(* ------------------------------------------------------------------ *)
(** ** Files, exceptions and the effect monad *)

(** Contents of a file. [ConfigFile] is a configuration file as
    [configparser.read] sees it: its sections with their (key, value)
    entries, comment and blank lines already dropped by configparser. *)
Inductive FileData :=
| PdfFile (pages : list Page)
| ConfigFile (sections : list (string * list (string * string)))
| RawFile (contents : string).

(** How writing to a path fails: [open(path, "wb")] raises, or the write
    raises after [open] truncated the file. *)
Inductive WriteFault := OpenFails | WriteFailsMidway.

Record FS := mkFS {
  fs_files : string -> option FileData;
  fs_faults : string -> option WriteFault
}.

Definition fs_write (fs : FS) (path : string) (d : FileData) : FS :=
  {| fs_files := fun q => if String.eqb q path then Some d else fs_files fs q;
     fs_faults := fs_faults fs |}.

(** The exception classes the code meets ([Exception] is the base class). *)
Inductive ExcType :=
| FileNotFoundError | PermissionError | OSError | PdfReadError
| RuntimeError | NotImplementedError | ValueError | ConfigParserError
| Exception.

Definition exc_type_name (t : ExcType) : string :=
  match t with
  | FileNotFoundError => "FileNotFoundError"
  | PermissionError => "PermissionError"
  | OSError => "OSError"
  | PdfReadError => "PdfReadError"
  | RuntimeError => "RuntimeError"
  | NotImplementedError => "NotImplementedError"
  | ValueError => "ValueError"
  | ConfigParserError => "MissingSectionHeaderError"
  | Exception => "Exception"
  end.

(** [isinstance(e, RuntimeError)] *)
Definition is_runtime_error (t : ExcType) : bool :=
  match t with RuntimeError | NotImplementedError => true | _ => false end.

(** [isinstance(e, FileNotFoundError)] *)
Definition is_file_not_found (t : ExcType) : bool :=
  match t with FileNotFoundError => true | _ => false end.

(** [isinstance(e, ValueError)] *)
Definition is_value_error (t : ExcType) : bool :=
  match t with ValueError => true | _ => false end.

(** An exception: its class and [str(e)]. *)
Record Exc := mkExc { exc_type : ExcType; exc_msg : string }.

(** Observable calls: [converter.convert(path)], the start of
    [patch_pdf_mediabox] (its first [print]), and the per-item status line
    of [main] tagged with the item's path. *)
Inductive Event :=
| EvConvert (path : string)
| EvPatch (pdf_path output_path : string)
| EvItemMissing (file_path : string)
| EvItemResult (file_path : string) (success : bool) (message : string).

Record St := mkSt { st_fs : FS; st_trace : list Event }.

Inductive Outcome (A : Type) := Ok (a : A) | Err (e : Exc).
Arguments Ok {A} a.
Arguments Err {A} e.

Definition M (A : Type) : Type := St -> St * Outcome A.

Definition ret {A} (a : A) : M A := fun st => (st, Ok a).

Definition bind {A B} (m : M A) (k : A -> M B) : M B :=
  fun st => match m st with
            | (st', Ok a) => k a st'
            | (st', Err e) => (st', Err e)
            end.

(** [raise e] *)
Definition raise {A} (e : Exc) : M A := fun st => (st, Err e).

(** [try: m except Exception as e: handler(e)] *)
Definition try_except {A} (m : M A) (handler : Exc -> M A) : M A :=
  fun st => match m st with
            | (st', Err e) => handler e st'
            | r => r
            end.

Definition emit (ev : Event) : M unit :=
  fun st => ({| st_fs := st_fs st; st_trace := st_trace st ++ [ev] |}, Ok tt).

Notation "x <- m ;; k" := (bind m (fun x => k))
  (at level 61, m at next level, right associativity).
Notation "' p <- m ;; k" := (bind m (fun x => match x with p => k end))
  (at level 61, p pattern, m at next level, right associativity).

(* ------------------------------------------------------------------ *)
(** ** [patch_pdf_mediabox] *)

(** [PdfReader(str(path))]: the whole file is read into memory. *)
Definition pdf_reader (path : string) : M (list Page) :=
  fun st =>
    match fs_files (st_fs st) path with
    | None => (st, Err (mkExc FileNotFoundError
                   ("[Errno 2] No such file or directory: '" ++ path ++ "'")))
    | Some (PdfFile pages) => (st, Ok pages)
    | Some _ => (st, Err (mkExc PdfReadError "EOF marker not found"))
    end.

(** [with open(output_path, "wb") as f: writer.write(f)] *)
Definition write_pdf (output_path : string) (pages : list Page) : M unit :=
  fun st =>
    match fs_faults (st_fs st) output_path with
    | Some OpenFails =>
        (st, Err (mkExc PermissionError
                   ("[Errno 13] Permission denied: '" ++ output_path ++ "'")))
    | Some WriteFailsMidway =>
        ({| st_fs := fs_write (st_fs st) output_path (RawFile "");
            st_trace := st_trace st |},
         Err (mkExc OSError "[Errno 28] No space left on device"))
    | None =>
        ({| st_fs := fs_write (st_fs st) output_path (PdfFile pages);
            st_trace := st_trace st |}, Ok tt)
    end.

(** [patch_pdf_mediabox(pdf_path, output_path) -> (success, message)];
    prints other than the first are not modelled. *)
Definition patch_pdf_mediabox (pdf_path output_path : string) : M (bool * string) :=
  try_except
    (_ <- emit (EvPatch pdf_path output_path) ;;
     pages <- pdf_reader pdf_path ;;
     let '(writer, pages_patched) := patch_loop pages [] 0 in
     _ <- write_pdf output_path writer ;;
     ret (true, "Patched " ++ Py.str_nat pages_patched ++ " page(s)"))
    (fun e => ret (false, "PDF patching failed: " ++ exc_type_name (exc_type e)
                          ++ ": " ++ exc_msg e)).

(* ------------------------------------------------------------------ *)
(** ** Conversion ([convert_document_to_markdown]) *)

Definition INPUT_DIR : string := "input".
Definition OUTPUT_DIR : string := "output".
Definition CONFIG_FILE : string := Py.path_join INPUT_DIR "config.ini".

(** docling, an external library: [converter.convert(path)], which yields a
    document (its Markdown text) or raises, and the export steps of lines
    195-245 ([save_as_markdown], moving the artifacts directory, rewriting
    image links), which yield the number of images found or raise. *)
Record Docling := mkDocling {
  docling_convert : FS -> string -> Outcome string;
  export_markdown : FS -> string -> string -> FS * Outcome nat
}.

(** [result = converter.convert(str(path))] *)
Definition convert (dl : Docling) (path : string) : M string :=
  fun st => ({| st_fs := st_fs st; st_trace := (st_trace st ++ [EvConvert path])%list |},
             docling_convert dl (st_fs st) path).

(** Lines 195-245: export of [result.document] under [output_base_name]. *)
Definition export (dl : Docling) (document output_base_name : string) : M nat :=
  fun st => let '(fs', r) := export_markdown dl (st_fs st) document output_base_name in
            ({| st_fs := fs'; st_trace := st_trace st |}, r).

(** The message of the outer [except FileNotFoundError] and
    [except Exception] clauses of [convert_document_to_markdown]. *)
Definition conversion_failure_message (e : Exc) : string :=
  if is_file_not_found (exc_type e) then "File not found: " ++ exc_msg e
  else "Conversion failed: " ++ exc_type_name (exc_type e) ++ ": " ++ exc_msg e.

(** [convert_document_to_markdown(doc_path, output_base_name)]; the prints,
    [OUTPUT_DIR.mkdir] and the converter's construction are not modelled. *)
Definition convert_document_to_markdown (dl : Docling) (doc_path output_base_name : string)
  : M (bool * string) :=
  try_except
    (let file_to_convert := doc_path in
     let is_pdf := String.eqb (Py.lower (Py.path_suffix doc_path)) ".pdf" in
     '(result, patched_pdf_path) <-
        try_except
          (result <- convert dl file_to_convert ;; ret (result, @None string))
          (fun e =>
             (* except RuntimeError as e *)
             if is_runtime_error (exc_type e) then
               if is_pdf && Py.contains "could not find the page-dimensions" (exc_msg e)
               then
                 let patched_pdf_path :=
                   Py.path_join OUTPUT_DIR (output_base_name ++ "_patched.pdf") in
                 '(patch_success, patch_msg) <- patch_pdf_mediabox doc_path patched_pdf_path ;;
                 if negb patch_success
                 then raise (mkExc Exception ("Failed to patch PDF: " ++ patch_msg))
                 else (result <- convert dl patched_pdf_path ;;
                       ret (result, Some patched_pdf_path))
               else raise e
             else raise e) ;;
     n_images <- export dl result output_base_name ;;
     let success_msg := "Successfully converted " ++ Py.path_name doc_path ++ " with "
                        ++ Py.str_nat n_images ++ " image(s)" in
     ret (true, match patched_pdf_path with
                | Some _ => success_msg ++ " (used patched PDF)"
                | None => success_msg
                end))
    (fun e => ret (false, conversion_failure_message e)).

(* ------------------------------------------------------------------ *)
(** ** Configuration and [main] *)

(** The loop of [parse_config] over [config["FILES"].items()]. *)
Fixpoint collect_files (items : list (string * string)) (files_to_process : list string)
  : list string :=
  match items with
  | [] => files_to_process
  | (key, value) :: rest =>
      if negb (String.eqb value "") && negb (Py.startswith (Py.strip value) "#")
      then collect_files rest
             (files_to_process ++ [Py.strip_quotes (Py.strip value)])%list
      else collect_files rest files_to_process
  end.

(** [parse_config()]; a file configparser cannot read raises its error. *)
Definition parse_config : M (list string) :=
  fun st =>
    match fs_files (st_fs st) CONFIG_FILE with
    | None => (st, Err (mkExc FileNotFoundError
                          ("Configuration file not found: " ++ CONFIG_FILE)))
    | Some (ConfigFile sections) =>
        match find (fun sec => String.eqb (fst sec) "FILES") sections with
        | None => (st, Err (mkExc ValueError "Config file must contain a [FILES] section"))
        | Some (_, items) => (st, Ok (collect_files items []))
        end
    | Some _ => (st, Err (mkExc ConfigParserError "File contains no section headers."))
    end.

(** [Path.exists()] *)
Definition path_exists (path : string) : M bool :=
  fun st => (st, Ok (match fs_files (st_fs st) path with Some _ => true | None => false end)).

(** [get_base_name(file_path)] *)
Definition get_base_name (file_path : string) : string := Py.path_stem file_path.

(** The loop of [main] over the work list, with its two counters. *)
Fixpoint main_loop (dl : Docling) (files : list string) (success_count failure_count : nat)
  : M (nat * nat) :=
  match files with
  | [] => ret (success_count, failure_count)
  | file_name :: rest =>
      let file_path := Py.path_join INPUT_DIR file_name in
      ex <- path_exists file_path ;;
      if negb ex then
        (_ <- emit (EvItemMissing file_path) ;;
         main_loop dl rest success_count (S failure_count))
      else
        (let base_name := get_base_name file_name in
         '(success, message) <- convert_document_to_markdown dl file_path base_name ;;
         _ <- emit (EvItemResult file_path success message) ;;
         if success then main_loop dl rest (S success_count) failure_count
         else main_loop dl rest success_count (S failure_count))
  end.

(** [main()]: the exit code; the three [except] clauses all return 1. *)
Definition main (dl : Docling) : M Z :=
  try_except
    (files <- parse_config ;;
     match files with
     | [] => ret 0%Z
     | _ :: _ =>
         '(success_count, failure_count) <- main_loop dl files 0 0 ;;
         ret (if Nat.eqb failure_count 0 then 0%Z else 1%Z)
     end)
    (fun _ => ret 1%Z).

(* ------------------------------------------------------------------ *)
(** ** convert_docx.py

    The DOCX-only tool. Its [parse_config] and [get_base_name] are the same
    text as in convert_documents.py and are shared; its conversion has no
    repair and retry. *)

Module ConvertDocx.

(** [convert_docx_to_markdown(docx_path, output_base_name)]; the prints,
    [OUTPUT_DIR.mkdir] and the converter's construction are not modelled. *)
Definition convert_docx_to_markdown (dl : Docling) (docx_path output_base_name : string)
  : M (bool * string) :=
  try_except
    (result <- convert dl docx_path ;;
     n_images <- export dl result output_base_name ;;
     ret (true, "Successfully converted " ++ Py.path_name docx_path ++ " with "
                ++ Py.str_nat n_images ++ " image(s)"))
    (fun e => ret (false, conversion_failure_message e)).

(** The loop of [main] over the work list. *)
Fixpoint main_loop (dl : Docling) (files : list string) (success_count failure_count : nat)
  : M (nat * nat) :=
  match files with
  | [] => ret (success_count, failure_count)
  | file_name :: rest =>
      let file_path := Py.path_join INPUT_DIR file_name in
      ex <- path_exists file_path ;;
      if negb ex then
        (_ <- emit (EvItemMissing file_path) ;;
         main_loop dl rest success_count (S failure_count))
      else
        (let base_name := get_base_name file_name in
         '(success, message) <- convert_docx_to_markdown dl file_path base_name ;;
         _ <- emit (EvItemResult file_path success message) ;;
         if success then main_loop dl rest (S success_count) failure_count
         else main_loop dl rest success_count (S failure_count))
  end.

(** [main()] of convert_docx.py. *)
Definition main (dl : Docling) : M Z :=
  try_except
    (files <- parse_config ;;
     match files with
     | [] => ret 0%Z
     | _ :: _ =>
         '(success_count, failure_count) <- main_loop dl files 0 0 ;;
         ret (if Nat.eqb failure_count 0 then 0%Z else 1%Z)
     end)
    (fun _ => ret 1%Z).

End ConvertDocx.

(* ------------------------------------------------------------------ *)
(** ** Concrete inputs used by the witnesses and counterexamples *)

Definition C1_page_zero_width : Page := mkPage (Some (mkRect 10 0 10 500)) "p1".
Definition C1_page_ok : Page := mkPage (Some (mkRect 0 0 612 792)) "p2".
Definition C1_page_none : Page := mkPage None "p3".

Definition fs_example (files : list (string * FileData))
  (faults : list (string * WriteFault)) : FS :=
  {| fs_files := fun q => option_map snd (find (fun kv => String.eqb (fst kv) q) files);
     fs_faults := fun q => option_map snd (find (fun kv => String.eqb (fst kv) q) faults) |}.

Definition C1_st : St :=
  mkSt (fs_example [("in.pdf", PdfFile [C1_page_zero_width; C1_page_ok; C1_page_none])] [])
       [].

(** A page whose box has its corners in the other order: [y0 = 842],
    [y1 = 0], so [height = -842]. *)
Definition C2_page_flipped : Page := mkPage (Some (mkRect 0 842 595 0)) "p1".

Definition C2_st : St := mkSt (fs_example [("in.pdf", PdfFile [C2_page_flipped])] []) [].


(** A docling stand-in: a PDF with a page lacking its box is rejected with
    the page-dimension error, other files convert; export finds no image. *)
Definition dims_error_msg : string :=
  "Input document a.pdf with format InputFormat.PDF could not find the page-dimensions.".

Definition C5_dl : Docling := mkDocling
  (fun fs path =>
     match fs_files fs path with
     | Some (PdfFile pages) =>
         if existsb lacks_mediabox pages then Err (mkExc RuntimeError dims_error_msg)
         else Ok "# a"
     | Some (RawFile c) => Ok c
     | Some (ConfigFile _) => Err (mkExc Exception "File format not allowed")
     | None => Err (mkExc FileNotFoundError path)
     end)
  (fun fs _ _ => (fs, Ok 0%nat)).


(** The same document with a writable output directory. *)
Definition C5_st_ok : St := mkSt (fs_example [("input/a.pdf", PdfFile [C1_page_none])] []) [].



(** Three work items, the second missing. *)
Definition C6_st : St :=
  mkSt (fs_example [(CONFIG_FILE, ConfigFile [("FILES", [("file1", "a.pdf");
                                                         ("file2", "gone.docx");
                                                         ("file3", "b.docx")])]);
                    ("input/a.pdf", PdfFile [C1_page_none]);
                    ("input/b.docx", RawFile "# b")] []) [].



Definition empty_st : St := mkSt (fs_example [] []) [].

(** A docling stand-in that never reports missing page dimensions. *)
Definition docx_dl : Docling := mkDocling
  (fun fs path =>
     match fs_files fs path with
     | Some (RawFile c) => Ok c
     | Some _ => Err (mkExc Exception "File format not allowed")
     | None => Err (mkExc FileNotFoundError path)
     end)
  (fun fs _ _ => (fs, Ok 1%nat)).

(* ------------------------------------------------------------------ *)
(** ** Facts about the repair loop *)

(** The page [writer.add_page] receives for [page]. *)
Definition repaired_page (page : Page) : Page :=
  if lacks_mediabox page then set_a4_mediabox page else page.

Lemma patch_loop_eq pages : forall writer n,
  patch_loop pages writer n =
  ((writer ++ map repaired_page pages)%list, n + length (filter lacks_mediabox pages))%nat.
Proof.
  induction pages as [|page rest IH]; intros writer n; simpl.
  - rewrite app_nil_r, Nat.add_0_r. reflexivity.
  - unfold repaired_page. destruct (lacks_mediabox page); rewrite IH;
      rewrite <- app_assoc; simpl; f_equal; lia.
Qed.

(** [patch_pdf_mediabox] computed case by case. *)
Lemma patch_pdf_mediabox_eq src dst st :
  patch_pdf_mediabox src dst st =
  let trace := (st_trace st ++ [EvPatch src dst])%list in
  let failed e := Ok (false, "PDF patching failed: " ++ exc_type_name (exc_type e)
                             ++ ": " ++ exc_msg e) in
  match fs_files (st_fs st) src with
  | Some (PdfFile pages) =>
      match fs_faults (st_fs st) dst with
      | None =>
          ({| st_fs := fs_write (st_fs st) dst (PdfFile (map repaired_page pages));
              st_trace := trace |},
           Ok (true, "Patched " ++ Py.str_nat (length (filter lacks_mediabox pages))
                     ++ " page(s)"))
      | Some OpenFails =>
          ({| st_fs := st_fs st; st_trace := trace |},
           failed (mkExc PermissionError
                     ("[Errno 13] Permission denied: '" ++ dst ++ "'")))
      | Some WriteFailsMidway =>
          ({| st_fs := fs_write (st_fs st) dst (RawFile ""); st_trace := trace |},
           failed (mkExc OSError "[Errno 28] No space left on device"))
      end
  | None =>
      ({| st_fs := st_fs st; st_trace := trace |},
       failed (mkExc FileNotFoundError
                 ("[Errno 2] No such file or directory: '" ++ src ++ "'")))
  | Some _ =>
      ({| st_fs := st_fs st; st_trace := trace |},
       failed (mkExc PdfReadError "EOF marker not found"))
  end.
Proof.
  unfold patch_pdf_mediabox, try_except, bind, emit, pdf_reader; simpl.
  destruct (fs_files (st_fs st) src) as [[pages| |]|]; try reflexivity.
  rewrite patch_loop_eq. simpl.
  unfold write_pdf, ret; simpl.
  destruct (fs_faults (st_fs st) dst) as [[|]|]; reflexivity.
Qed.


Lemma fs_write_other fs path d q :
  q <> path -> fs_files (fs_write fs path d) q = fs_files fs q.
Proof.
  intros Hq. simpl. destruct (String.eqb_spec q path); [contradiction|reflexivity].
Qed.

Lemma fs_write_same fs path d :
  fs_files (fs_write fs path d) path = Some d.
Proof. simpl. rewrite String.eqb_refl. reflexivity. Qed.

Lemma nth_error_map_repaired pages i :
  nth_error (map repaired_page pages) i = option_map repaired_page (nth_error pages i).
Proof. apply nth_error_map. Qed.

Lemma repaired_page_not_lacking page : lacks_mediabox (repaired_page page) = false.
Proof.
  unfold repaired_page. destruct (lacks_mediabox page) eqn:E; [reflexivity|exact E].
Qed.

Lemma repaired_page_idem page : repaired_page (repaired_page page) = repaired_page page.
Proof.
  unfold repaired_page at 1. rewrite repaired_page_not_lacking. reflexivity.
Qed.

Lemma patch_pdf_mediabox_success src dst st st' msg :
  patch_pdf_mediabox src dst st = (st', Ok (true, msg)) ->
  exists pages,
    fs_files (st_fs st) src = Some (PdfFile pages) /\
    fs_faults (st_fs st) dst = None /\
    st' = {| st_fs := fs_write (st_fs st) dst (PdfFile (map repaired_page pages));
             st_trace := (st_trace st ++ [EvPatch src dst])%list |} /\
    msg = "Patched " ++ Py.str_nat (length (filter lacks_mediabox pages)) ++ " page(s)".
Proof.
  rewrite patch_pdf_mediabox_eq. simpl.
  destruct (fs_files (st_fs st) src) as [[pages| |]|]; try (intros H; discriminate H).
  destruct (fs_faults (st_fs st) dst) as [[|]|]; intros H; try discriminate H.
  injection H as <- <-. exists pages. repeat split; reflexivity.
Qed.

(* ------------------------------------------------------------------ *)
(** ** Claims about [patch_pdf_mediabox] *)



Example patch_pdf_mediabox_C1_message :
  snd (patch_pdf_mediabox "in.pdf" "out.pdf" C1_st) = Ok (true, "Patched 2 page(s)").
Proof. reflexivity. Qed.

(** C2 (as stated, refuted): a page whose box has reversed corners has
    height -842, is not patched, and is written with that height. *)
Lemma patch_pdf_mediabox_flipped_box_stays_negative :
  ~ (forall st' msg out,
       patch_pdf_mediabox "in.pdf" "out.pdf" C2_st = (st', Ok (true, msg)) ->
       fs_files (st_fs st') "out.pdf" = Some (PdfFile out) ->
       Forall (fun p => exists r, mediabox p = Some r /\ (width r > 0)%Z /\ (height r > 0)%Z)
              out).
Proof.
  intros H.
  specialize (H _ _ [C2_page_flipped] eq_refl eq_refl).
  inversion H as [|p l Hp _ Heq]; subst.
  destruct Hp as (r & Hr & _ & Hh). unfold C2_page_flipped in Hr. simpl in Hr.
  injection Hr as <-. unfold height in Hh. simpl in Hh. lia.
Qed.

(** C2 (amended): after a successful repair every page of the written PDF
    has a bounding box whose width and height are both non-zero. *)
Theorem patch_pdf_mediabox_output_boxes_nonzero src dst st st' msg :
  patch_pdf_mediabox src dst st = (st', Ok (true, msg)) ->
  exists out,
    fs_files (st_fs st') dst = Some (PdfFile out) /\
    Forall (fun p => exists r, mediabox p = Some r /\ width r <> 0%Z /\ height r <> 0%Z) out.
Proof.
  intros Hrun. apply patch_pdf_mediabox_success in Hrun as (pages & _ & _ & -> & _).
  exists (map repaired_page pages). split; [apply fs_write_same|].
  apply Forall_forall. intros p Hin. apply in_map_iff in Hin as (q & <- & _).
  pose proof (repaired_page_not_lacking q) as Hn.
  unfold lacks_mediabox in Hn. destruct (mediabox (repaired_page q)) as [r|]; [|discriminate].
  exists r. split; [reflexivity|].
  apply orb_false_iff in Hn as [Hw Hh]. apply Z.eqb_neq in Hw, Hh. auto.
Qed.

Lemma patch_pdf_mediabox_output_boxes_nonzero_witness :
  exists st' msg,
    patch_pdf_mediabox "in.pdf" "out.pdf" C1_st = (st', Ok (true, msg)) /\
    exists out,
      fs_files (st_fs st') "out.pdf" = Some (PdfFile out) /\
      Forall (fun p => exists r, mediabox p = Some r /\ width r <> 0%Z /\ height r <> 0%Z) out.
Proof.
  eexists. eexists. split; [reflexivity|].
  apply (patch_pdf_mediabox_output_boxes_nonzero "in.pdf" "out.pdf" C1_st _
           "Patched 2 page(s)").
  reflexivity.
Defined.

Lemma map_repaired_valid pages :
  Forall (fun p => lacks_mediabox p = false) pages -> map repaired_page pages = pages.
Proof.
  induction 1 as [|p l Hp _ IH]; [reflexivity|].
  simpl. rewrite IH. unfold repaired_page. rewrite Hp. reflexivity.
Qed.

Lemma filter_lacks_valid pages :
  Forall (fun p => lacks_mediabox p = false) pages -> filter lacks_mediabox pages = [].
Proof.
  induction 1 as [|p l Hp _ IH]; [reflexivity|]. simpl. rewrite Hp. exact IH.
Qed.

Lemma valid_box_not_lacking p :
  (exists r, mediabox p = Some r /\ width r <> 0%Z /\ height r <> 0%Z) ->
  lacks_mediabox p = false.
Proof.
  intros (r & Hr & Hw & Hh). unfold lacks_mediabox. rewrite Hr.
  apply Z.eqb_neq in Hw, Hh. rewrite Hw, Hh. reflexivity.
Qed.

(** C3: on a PDF whose pages all have a box of non-zero width and height,
    repair writes the pages unchanged and reports zero pages patched; and
    repairing the output of a successful repair writes the same pages again. *)
Theorem patch_pdf_mediabox_idempotent :
  (forall st src dst pages,
     fs_files (st_fs st) src = Some (PdfFile pages) ->
     fs_faults (st_fs st) dst = None ->
     Forall (fun p => exists r, mediabox p = Some r /\ width r <> 0%Z /\ height r <> 0%Z)
            pages ->
     exists st',
       patch_pdf_mediabox src dst st = (st', Ok (true, "Patched 0 page(s)")) /\
       fs_files (st_fs st') dst = Some (PdfFile pages)) /\
  (forall st src dst1 dst2 st1 msg1 st2 msg2,
     patch_pdf_mediabox src dst1 st = (st1, Ok (true, msg1)) ->
     patch_pdf_mediabox dst1 dst2 st1 = (st2, Ok (true, msg2)) ->
     fs_files (st_fs st2) dst2 = fs_files (st_fs st1) dst1 /\ msg2 = "Patched 0 page(s)").
Proof.
  split.
  - intros st src dst pages Hsrc Hdst Hvalid.
    assert (Hv : Forall (fun p => lacks_mediabox p = false) pages).
    { eapply Forall_impl; [|exact Hvalid]. intros p. apply valid_box_not_lacking. }
    rewrite patch_pdf_mediabox_eq. simpl. rewrite Hsrc, Hdst.
    rewrite map_repaired_valid, filter_lacks_valid by exact Hv.
    eexists. split; [reflexivity|]. apply fs_write_same.
  - intros st src dst1 dst2 st1 msg1 st2 msg2 H1 H2.
    apply patch_pdf_mediabox_success in H1 as (pages & _ & _ & -> & _).
    apply patch_pdf_mediabox_success in H2 as (pages2 & Hsrc2 & _ & -> & ->).
    simpl in Hsrc2. rewrite String.eqb_refl in Hsrc2. injection Hsrc2 as <-.
    assert (Hv : Forall (fun p => lacks_mediabox p = false) (map repaired_page pages)).
    { apply Forall_forall. intros p Hin. apply in_map_iff in Hin as (q & <- & _).
      apply repaired_page_not_lacking. }
    rewrite (map_repaired_valid _ Hv), (filter_lacks_valid _ Hv).
    split; [|reflexivity].
    simpl. rewrite !String.eqb_refl. reflexivity.
Qed.

(** C4: a successful repair writes exactly as many pages as the source has,
    and the page at each index is the source page at that index, with only
    its box possibly replaced. *)
Theorem patch_pdf_mediabox_preserves_pages src dst st st' msg :
  patch_pdf_mediabox src dst st = (st', Ok (true, msg)) ->
  exists pages out,
    fs_files (st_fs st) src = Some (PdfFile pages) /\
    fs_files (st_fs st') dst = Some (PdfFile out) /\
    length out = length pages /\
    forall i p, nth_error pages i = Some p ->
      exists q, nth_error out i = Some q /\ page_content q = page_content p /\
                (mediabox q = mediabox p \/ mediabox q = Some (mkRect 0 0 595 842)).
Proof.
  intros Hrun. apply patch_pdf_mediabox_success in Hrun as (pages & Hsrc & _ & -> & _).
  exists pages, (map repaired_page pages). split; [exact Hsrc|].
  split; [apply fs_write_same|]. split; [apply length_map|].
  intros i p Hi. rewrite nth_error_map_repaired, Hi. simpl.
  exists (repaired_page p). split; [reflexivity|].
  unfold repaired_page. destruct (lacks_mediabox p); simpl; auto.
Qed.

Lemma patch_pdf_mediabox_preserves_pages_witness :
  exists st' msg,
    patch_pdf_mediabox "in.pdf" "out.pdf" C1_st = (st', Ok (true, msg)) /\
    exists pages out,
      fs_files (st_fs C1_st) "in.pdf" = Some (PdfFile pages) /\
      fs_files (st_fs st') "out.pdf" = Some (PdfFile out) /\
      length out = length pages.
Proof.
  eexists. eexists. split; [reflexivity|].
  destruct (patch_pdf_mediabox_preserves_pages "in.pdf" "out.pdf" C1_st _ _ eq_refl)
    as (pages & out & H1 & H2 & H3 & _).
  exists pages, out. auto.
Defined.

Lemma patch_pdf_mediabox_idempotent_witness :
  exists st',
    patch_pdf_mediabox "in.pdf" "out.pdf" C2_st = (st', Ok (true, "Patched 0 page(s)")) /\
    fs_files (st_fs st') "out.pdf" = Some (PdfFile [C2_page_flipped]).
Proof.
  apply (proj1 patch_pdf_mediabox_idempotent C2_st "in.pdf" "out.pdf" [C2_page_flipped]).
  - reflexivity.
  - reflexivity.
  - repeat constructor. exists (mkRect 0 842 595 0). unfold width, height; simpl.
    split; [reflexivity|]. split; discriminate.
Defined.




(* ------------------------------------------------------------------ *)
(** ** Claims about [convert_document_to_markdown] *)

Lemma patch_pdf_mediabox_returns src dst st :
  exists st2 ok msg,
    patch_pdf_mediabox src dst st = (st2, Ok (ok, msg)) /\
    st_trace st2 = (st_trace st ++ [EvPatch src dst])%list.
Proof.
  rewrite patch_pdf_mediabox_eq. cbv zeta.
  destruct (fs_files (st_fs st) src) as [[pages| |]|];
    [destruct (fs_faults (st_fs st) dst) as [[|]|]| | |];
    do 3 eexists; split; reflexivity.
Qed.

(** [convert_document_to_markdown] computed along its branches. *)
Lemma convert_document_to_markdown_cases dl doc base st :
  let pp := Py.path_join OUTPUT_DIR (base ++ "_patched.pdf") in
  let st1 := {| st_fs := st_fs st; st_trace := (st_trace st ++ [EvConvert doc])%list |} in
  match docling_convert dl (st_fs st) doc with
  | Ok _ => exists st' ok msg,
      convert_document_to_markdown dl doc base st = (st', Ok (ok, msg)) /\
      st_trace st' = st_trace st1
  | Err e =>
      if is_runtime_error (exc_type e) &&
         (String.eqb (Py.lower (Py.path_suffix doc)) ".pdf" &&
          Py.contains "could not find the page-dimensions" (exc_msg e))
      then
        match patch_pdf_mediabox doc pp st1 with
        | (st2, Ok (false, m)) =>
            convert_document_to_markdown dl doc base st =
              (st2, Ok (false, conversion_failure_message
                                 (mkExc Exception ("Failed to patch PDF: " ++ m))))
        | (st2, Ok (true, _)) =>
            let st3 := {| st_fs := st_fs st2;
                          st_trace := (st_trace st2 ++ [EvConvert pp])%list |} in
            match docling_convert dl (st_fs st2) pp with
            | Ok _ => exists st' ok msg,
                convert_document_to_markdown dl doc base st = (st', Ok (ok, msg)) /\
                st_trace st' = st_trace st3
            | Err e' =>
                convert_document_to_markdown dl doc base st =
                  (st3, Ok (false, conversion_failure_message e'))
            end
        | (_, Err _) => False
        end
      else convert_document_to_markdown dl doc base st =
             (st1, Ok (false, conversion_failure_message e))
  end.
Proof.
  cbv zeta. unfold convert_document_to_markdown, try_except, bind, ret, raise, convert.
  cbn [st_fs st_trace].
  destruct (docling_convert dl (st_fs st) doc) as [r|e].
  - unfold export. cbn [st_fs st_trace].
    destruct (export_markdown dl (st_fs st) r base) as [fs' [n|e']].
    + do 3 eexists. split; reflexivity.
    + do 3 eexists. split; reflexivity.
  - destruct (is_runtime_error (exc_type e)); simpl; [|reflexivity].
    destruct (String.eqb (Py.lower (Py.path_suffix doc)) ".pdf"
              && Py.contains "could not find the page-dimensions" (exc_msg e));
      [|reflexivity].
    destruct (patch_pdf_mediabox_returns doc (Py.path_join OUTPUT_DIR (base ++ "_patched.pdf"))
                {| st_fs := st_fs st; st_trace := (st_trace st ++ [EvConvert doc])%list |})
      as (st2 & ok & m & Hp & _).
    rewrite Hp. destruct ok; simpl; [|reflexivity].
    destruct (docling_convert dl (st_fs st2) (Py.path_join OUTPUT_DIR (base ++ "_patched.pdf")))
      as [r|e']; [|reflexivity].
    unfold export. cbn [st_fs st_trace].
    destruct (export_markdown dl (st_fs st2) r base) as [fs' [n|e']];
      do 3 eexists; split; reflexivity.
Qed.

Example convert_document_C5_patched_retry :
  convert_document_to_markdown C5_dl "input/a.pdf" "a" C5_st_ok =
  (fst (convert_document_to_markdown C5_dl "input/a.pdf" "a" C5_st_ok),
   Ok (true, "Successfully converted a.pdf with 0 image(s) (used patched PDF)")) /\
  st_trace (fst (convert_document_to_markdown C5_dl "input/a.pdf" "a" C5_st_ok)) =
    [EvConvert "input/a.pdf"; EvPatch "input/a.pdf" "output/a_patched.pdf";
     EvConvert "output/a_patched.pdf"].
Proof. split; vm_compute; reflexivity. Qed.


Lemma app_single_eq {A} (l evs : list A) x :
  (l ++ [x])%list = (l ++ evs)%list -> evs = [x].
Proof. intros H. apply app_inv_head in H. symmetry. exact H. Qed.



(** C10: a repair is attempted only after docling failed on a file whose
    suffix is [.pdf] in any case, with a [RuntimeError] whose message
    contains "could not find the page-dimensions". *)
Theorem convert_document_repairs_only_on_page_dimension_error
  dl doc base st st' res evs :
  convert_document_to_markdown dl doc base st = (st', res) ->
  st_trace st' = (st_trace st ++ evs)%list ->
  (exists s d, In (EvPatch s d) evs) ->
  exists e,
    docling_convert dl (st_fs st) doc = Err e /\
    Py.lower (Py.path_suffix doc) = ".pdf" /\
    is_runtime_error (exc_type e) = true /\
    Py.contains "could not find the page-dimensions" (exc_msg e) = true.
Proof.
  intros Hrun Htr (s & d & Hin).
  pose proof (convert_document_to_markdown_cases dl doc base st) as Hc. cbv zeta in Hc.
  rewrite Hrun in Hc.
  destruct (docling_convert dl (st_fs st) doc) as [r|e].
  - destruct Hc as (st'' & ok & msg & Heq & Ht). injection Heq as <- _.
    rewrite Ht in Htr. simpl in Htr. apply app_single_eq in Htr. subst evs.
    destruct Hin as [H|[]]. discriminate H.
  - exists e. split; [reflexivity|].
    destruct (is_runtime_error (exc_type e)) eqn:Hr;
      [destruct (String.eqb_spec (Py.lower (Py.path_suffix doc)) ".pdf") as [Hs|Hs];
       [destruct (Py.contains "could not find the page-dimensions" (exc_msg e)) eqn:Hm|]|].
    + auto.
    + injection Hc as -> _. simpl in Htr. apply app_single_eq in Htr. subst evs.
      destruct Hin as [H|[]]. discriminate H.
    + injection Hc as -> _. simpl in Htr. apply app_single_eq in Htr. subst evs.
      destruct Hin as [H|[]]. discriminate H.
    + injection Hc as -> _. simpl in Htr. apply app_single_eq in Htr. subst evs.
      destruct Hin as [H|[]]. discriminate H.
Qed.

Lemma convert_document_repairs_only_on_page_dimension_error_witness :
  exists e,
    docling_convert C5_dl (st_fs C5_st_ok) "input/a.pdf" = Err e /\
    Py.lower (Py.path_suffix "input/a.pdf") = ".pdf" /\
    is_runtime_error (exc_type e) = true /\
    Py.contains "could not find the page-dimensions" (exc_msg e) = true.
Proof.
  apply (convert_document_repairs_only_on_page_dimension_error C5_dl "input/a.pdf" "a" C5_st_ok
           (fst (convert_document_to_markdown C5_dl "input/a.pdf" "a" C5_st_ok))
           (snd (convert_document_to_markdown C5_dl "input/a.pdf" "a" C5_st_ok))
           [EvConvert "input/a.pdf"; EvPatch "input/a.pdf" "output/a_patched.pdf";
            EvConvert "output/a_patched.pdf"]).
  - reflexivity.
  - vm_compute. reflexivity.
  - exists "input/a.pdf", "output/a_patched.pdf". simpl. auto.
Defined.

(* ------------------------------------------------------------------ *)
(** ** Claims about [parse_config] and [main] *)

Example main_C6_runs_all_items :
  snd (main C5_dl C6_st) = Ok 1%Z /\
  st_trace (fst (main C5_dl C6_st)) =
    [EvConvert "input/a.pdf"; EvPatch "input/a.pdf" "output/a_patched.pdf";
     EvConvert "output/a_patched.pdf";
     EvItemResult "input/a.pdf" true
       "Successfully converted a.pdf with 0 image(s) (used patched PDF)";
     EvItemMissing "input/gone.docx"; EvConvert "input/b.docx";
     EvItemResult "input/b.docx" true "Successfully converted b.docx with 0 image(s)"].
Proof. split; vm_compute; reflexivity. Qed.



Lemma filter_nil_Forall {A} (f : A -> bool) l :
  filter f l = [] <-> Forall (fun x => f x = false) l.
Proof.
  induction l as [|x l IH]; simpl; [split; auto|].
  destruct (f x) eqn:E; split; intros H.
  - discriminate H.
  - inversion H as [|y k Hy _]. congruence.
  - constructor; [exact E|]. apply IH, H.
  - inversion H as [|y k _ Hl]. apply IH, Hl.
Qed.



(** C8: without a configuration file, [parse_config] raises
    [FileNotFoundError] and [main] returns 1. *)
Theorem main_missing_config dl st :
  fs_files (st_fs st) CONFIG_FILE = None ->
  parse_config st = (st, Err (mkExc FileNotFoundError
                               ("Configuration file not found: " ++ CONFIG_FILE))) /\
  main dl st = (st, Ok 1%Z).
Proof.
  intros H. unfold main, parse_config, try_except, bind. rewrite H. split; reflexivity.
Qed.

Lemma main_missing_config_witness :
  parse_config empty_st = (empty_st, Err (mkExc FileNotFoundError
                               ("Configuration file not found: " ++ CONFIG_FILE))) /\
  main C5_dl empty_st = (empty_st, Ok 1%Z).
Proof. apply main_missing_config. reflexivity. Defined.





(* ------------------------------------------------------------------ *)
(** ** Further properties of the code *)

Lemma string_of_list_ascii_app (a b : list ascii) :
  string_of_list_ascii (a ++ b) = (string_of_list_ascii a ++ string_of_list_ascii b)%string.
Proof. induction a as [|c a IH]; simpl; [reflexivity|]. rewrite IH. reflexivity. Qed.

Lemma string_app_nil_r (s : string) : (s ++ "")%string = s.
Proof. induction s as [|c s IH]; simpl; [reflexivity|]. rewrite IH. reflexivity. Qed.

Lemma rfind_from_some c l : forall k found i,
  Py.rfind_from c l k found = Some i ->
  (k <= i /\ nth_error l (i - k) = Some c /\ ~ In c (skipn (S (i - k)) l)) \/
  (found = Some i /\ ~ In c l).
Proof.
  induction l as [|x l IH]; intros k found i H; simpl in H.
  - right. split; [exact H|intros []].
  - apply IH in H as [(Hk & Hn & Hnot)|(Hf & Hnot)].
    + left. split; [lia|]. replace (i - k) with (S (i - S k)) by lia. simpl. auto.
    + destruct (Ascii.eqb_spec x c) as [->|Hx].
      * injection Hf as <-. left. rewrite Nat.sub_diag. simpl. auto.
      * right. split; [exact Hf|]. intros [->|Hin]; [apply Hx; reflexivity|auto].
Qed.

Lemma rfind_from_none c l : forall k found,
  Py.rfind_from c l k found = None -> found = None /\ ~ In c l.
Proof.
  induction l as [|x l IH]; intros k found H; simpl in H.
  - split; [exact H|intros []].
  - apply IH in H as [Hf Hnot]. destruct (Ascii.eqb_spec x c) as [->|Hx]; [discriminate Hf|].
    split; [exact Hf|]. intros [->|Hin]; [apply Hx; reflexivity|auto].
Qed.

Lemma path_name_no_slash p : ~ In "/"%char (list_ascii_of_string (Py.path_name p)).
Proof.
  unfold Py.path_name, Py.rfind.
  destruct (Py.rfind_from "/"%char (list_ascii_of_string p) 0 None) as [i|] eqn:E.
  - rewrite list_ascii_of_string_of_list_ascii.
    apply rfind_from_some in E as [(_ & _ & Hnot)|([=] & _)].
    rewrite Nat.sub_0_r in Hnot. exact Hnot.
  - apply rfind_from_none in E as [_ Hnot]. exact Hnot.
Qed.

Lemma In_firstn_In {A} (x : A) n l : In x (firstn n l) -> In x l.
Proof.
  revert l; induction n as [|n IH]; intros [|y l]; simpl; try tauto.
  intros [->|H]; [left; reflexivity|right; apply IH, H].
Qed.

(** [get_base_name] (that is, [Path(p).stem]) followed by [Path(p).suffix]
    gives back the last path component [Path(p).name]. *)
Theorem get_base_name_suffix_roundtrip file_path :
  (get_base_name file_path ++ Py.path_suffix file_path)%string = Py.path_name file_path.
Proof.
  unfold get_base_name, Py.path_stem, Py.path_suffix.
  destruct (Py.rfind "."%char (list_ascii_of_string (Py.path_name file_path))) as [i|].
  - destruct ((0 <? i)%nat && (i <? length (list_ascii_of_string (Py.path_name file_path)) - 1)%nat).
    + rewrite <- string_of_list_ascii_app, firstn_skipn.
      apply string_of_list_ascii_of_string.
    + apply string_app_nil_r.
  - apply string_app_nil_r.
Qed.

Lemma get_base_name_no_slash file_name :
  ~ In "/"%char (list_ascii_of_string (get_base_name file_name)).
Proof.
  unfold get_base_name, Py.path_stem.
  pose proof (path_name_no_slash file_name) as Hn.
  destruct (Py.rfind "."%char (list_ascii_of_string (Py.path_name file_name))) as [i|];
    [destruct (_ && _)|]; try exact Hn.
  rewrite list_ascii_of_string_of_list_ascii. intros H. apply Hn. eapply In_firstn_In, H.
Qed.

(** The base name [get_base_name] derives from a configured entry never
    contains '/', so the patched copy [OUTPUT_DIR / f"{base}_patched.pdf"]
    is always the file [output/<base>_patched.pdf] directly inside the
    output directory, whatever the entry (absolute or with directories). *)
Theorem patched_pdf_path_inside_output file_name :
  ~ In "/"%char (list_ascii_of_string (get_base_name file_name)) /\
  Py.path_join OUTPUT_DIR (get_base_name file_name ++ "_patched.pdf")
  = ("output/" ++ get_base_name file_name ++ "_patched.pdf")%string.
Proof.
  pose proof (get_base_name_no_slash file_name) as Hn. split; [exact Hn|].
  unfold Py.path_join, Py.startswith.
  destruct (get_base_name file_name) as [|c t] eqn:Hb; [reflexivity|].
  cbn [String.append String.eqb String.prefix].
  destruct (Ascii.ascii_dec "/"%char c) as [<-|Hc]; [|reflexivity].
  exfalso. apply Hn. left. reflexivity.
Qed.







(** A successful [convert_document_to_markdown] reports
    "Successfully converted <name> with <n> image(s)"; either docling was
    called once and nothing was repaired, or the file was repaired into
    [output/<base>_patched.pdf], docling was called again on it, and the
    message ends with " (used patched PDF)". *)
Theorem convert_document_success_message dl doc base st st' msg :
  convert_document_to_markdown dl doc base st = (st', Ok (true, msg)) ->
  let pp := Py.path_join OUTPUT_DIR (base ++ "_patched.pdf") in
  exists n,
    (msg = "Successfully converted " ++ Py.path_name doc ++ " with " ++ Py.str_nat n
           ++ " image(s)" /\
     st_trace st' = (st_trace st ++ [EvConvert doc])%list) \/
    (msg = ("Successfully converted " ++ Py.path_name doc ++ " with " ++ Py.str_nat n
            ++ " image(s)") ++ " (used patched PDF)" /\
     st_trace st' = (st_trace st ++ [EvConvert doc; EvPatch doc pp; EvConvert pp])%list).
Proof.
  unfold convert_document_to_markdown, try_except, bind, ret, raise, convert, export.
  cbn [st_fs st_trace]. cbv zeta.
  destruct (docling_convert dl (st_fs st) doc) as [r|e].
  - cbn [st_fs st_trace].
    destruct (export_markdown dl (st_fs st) r base) as [fs' [n|e']];
      intros H; injection H as <- Hm; [|discriminate Hm].
    exists n. left. split; [subst msg; reflexivity|reflexivity].
  - destruct (is_runtime_error (exc_type e)); simpl;
      [|intros H; injection H as _ Hm; discriminate Hm].
    destruct (String.eqb (Py.lower (Py.path_suffix doc)) ".pdf"
              && Py.contains "could not find the page-dimensions" (exc_msg e));
      [|intros H; injection H as _ Hm; discriminate Hm].
    destruct (patch_pdf_mediabox_returns doc (Py.path_join OUTPUT_DIR (base ++ "_patched.pdf"))
                {| st_fs := st_fs st; st_trace := (st_trace st ++ [EvConvert doc])%list |})
      as (st2 & ok & m & Hp & Ht).
    rewrite Hp. destruct ok; simpl; [|intros H; injection H as _ Hm; discriminate Hm].
    destruct (docling_convert dl (st_fs st2) (Py.path_join OUTPUT_DIR (base ++ "_patched.pdf")))
      as [r|e']; [|intros H; injection H as _ Hm; discriminate Hm].
    cbn [st_fs st_trace].
    destruct (export_markdown dl (st_fs st2) r base) as [fs' [n|e']];
      intros H; injection H as <- Hm; [|discriminate Hm].
    exists n. right. split; [subst msg; reflexivity|]. simpl. rewrite Ht. simpl.
    rewrite <- !app_assoc. reflexivity.
Qed.

Lemma convert_document_success_message_witness :
  exists n,
    ("Successfully converted a.pdf with 0 image(s) (used patched PDF)" =
       "Successfully converted " ++ Py.path_name "input/a.pdf" ++ " with " ++ Py.str_nat n
       ++ " image(s)" /\
     st_trace (fst (convert_document_to_markdown C5_dl "input/a.pdf" "a" C5_st_ok)) =
       (st_trace C5_st_ok ++ [EvConvert "input/a.pdf"])%list) \/
    ("Successfully converted a.pdf with 0 image(s) (used patched PDF)" =
       ("Successfully converted " ++ Py.path_name "input/a.pdf" ++ " with " ++ Py.str_nat n
        ++ " image(s)") ++ " (used patched PDF)" /\
     st_trace (fst (convert_document_to_markdown C5_dl "input/a.pdf" "a" C5_st_ok)) =
       (st_trace C5_st_ok ++ [EvConvert "input/a.pdf";
                              EvPatch "input/a.pdf" "output/a_patched.pdf";
                              EvConvert "output/a_patched.pdf"])%list).
Proof.
  apply (convert_document_success_message C5_dl "input/a.pdf" "a" C5_st_ok
           (fst (convert_document_to_markdown C5_dl "input/a.pdf" "a" C5_st_ok))).
  vm_compute. reflexivity.
Defined.

Lemma list_ascii_of_string_app (a b : string) :
  list_ascii_of_string (a ++ b) = (list_ascii_of_string a ++ list_ascii_of_string b)%list.
Proof. induction a as [|c a IH]; simpl; [reflexivity|]. rewrite IH. reflexivity. Qed.

Lemma string_app_inv_r (a b c : string) : (a ++ c)%string = (b ++ c)%string -> a = b.
Proof.
  intros H. apply (f_equal list_ascii_of_string) in H.
  rewrite !list_ascii_of_string_app in H. apply app_inv_tail in H.
  rewrite <- (string_of_list_ascii_of_string a), <- (string_of_list_ascii_of_string b), H.
  reflexivity.
Qed.

Lemma str_nat_zero n : Py.str_nat n = "0" <-> n = 0%nat.
Proof.
  split; [|intros ->; reflexivity].
  unfold Py.str_nat. intros H.
  rewrite <- (DecimalNat.Unsigned.of_to n).
  destruct (Nat.to_uint n) as [|d|d|d|d|d|d|d|d|d|d]; simpl in H;
    try discriminate H.
  injection H as H. destruct d; simpl in H; try discriminate H. reflexivity.
Qed.

Lemma map_repaired_fixed pages :
  map repaired_page pages = pages <-> filter lacks_mediabox pages = [].
Proof.
  split.
  - intros H. rewrite <- H. apply filter_nil_Forall, Forall_forall.
    intros p Hp. apply in_map_iff in Hp as (q & <- & _). apply repaired_page_not_lacking.
  - intros H. apply map_repaired_valid, filter_nil_Forall, H.
Qed.

(** [patch_pdf_mediabox] (lines 95-114): a successful repair reports
    "Patched 0 page(s)" exactly when the PDF it wrote to [output_path] has
    the very pages of the source, i.e. when no page lacked a usable
    MediaBox. *)
Theorem patch_pdf_mediabox_zero_iff_unchanged src dst st st' msg pages :
  fs_files (st_fs st) src = Some (PdfFile pages) ->
  patch_pdf_mediabox src dst st = (st', Ok (true, msg)) ->
  (msg = "Patched 0 page(s)" <-> fs_files (st_fs st') dst = Some (PdfFile pages)).
Proof.
  intros Hsrc Hp.
  apply patch_pdf_mediabox_success in Hp as (pages' & Hsrc' & _ & -> & ->).
  rewrite Hsrc in Hsrc'. injection Hsrc' as <-.
  simpl st_fs. rewrite fs_write_same.
  transitivity (length (filter lacks_mediabox pages) = 0%nat).
  - rewrite <- str_nat_zero. split.
    + intros H. injection H as H. apply (string_app_inv_r _ _ " page(s)"). exact H.
    + intros H. rewrite H. reflexivity.
  - rewrite length_zero_iff_nil, <- map_repaired_fixed. split.
    + intros ->. reflexivity.
    + intros H. injection H as H. exact H.
Qed.

Lemma patch_pdf_mediabox_zero_iff_unchanged_witness :
  fs_files (st_fs C2_st) "in.pdf" = Some (PdfFile [C2_page_flipped]) /\
  patch_pdf_mediabox "in.pdf" "out.pdf" C2_st =
    (fst (patch_pdf_mediabox "in.pdf" "out.pdf" C2_st), Ok (true, "Patched 0 page(s)")) /\
  fs_files (st_fs (fst (patch_pdf_mediabox "in.pdf" "out.pdf" C2_st))) "out.pdf" =
    Some (PdfFile [C2_page_flipped]).
Proof.
  split; [reflexivity|]. split; [reflexivity|].
  apply (proj1 (patch_pdf_mediabox_zero_iff_unchanged "in.pdf" "out.pdf" C2_st
                  (fst (patch_pdf_mediabox "in.pdf" "out.pdf" C2_st))
                  "Patched 0 page(s)" [C2_page_flipped] eq_refl eq_refl)).
  reflexivity.
Defined.

(** When docling's first call does not fail with a [RuntimeError] about
    page dimensions, [convert_document_to_markdown] computes what
    [convert_docx_to_markdown] of convert_docx.py computes. *)
Lemma convert_document_as_docx dl doc base st :
  (forall e, docling_convert dl (st_fs st) doc = Err e ->
             is_runtime_error (exc_type e) = false \/
             Py.contains "could not find the page-dimensions" (exc_msg e) = false) ->
  convert_document_to_markdown dl doc base st =
  ConvertDocx.convert_docx_to_markdown dl doc base st.
Proof.
  intros Hdl.
  unfold convert_document_to_markdown, ConvertDocx.convert_docx_to_markdown,
    try_except, bind, ret, raise, convert.
  cbn [st_fs st_trace]. cbv zeta.
  destruct (docling_convert dl (st_fs st) doc) as [r|e] eqn:E.
  - reflexivity.
  - destruct (Hdl e eq_refl) as [H|H]; rewrite H; [reflexivity|].
    destruct (is_runtime_error (exc_type e)); [|reflexivity].
    rewrite andb_false_r. reflexivity.
Qed.

(** Lines 120-257 against convert_docx.py lines 70-168: on a document for
    which docling's first call does not raise a [RuntimeError] mentioning
    page dimensions, the two converters have the same effect and result. *)
Theorem convert_document_same_as_docx dl doc base st :
  (forall e, docling_convert dl (st_fs st) doc = Err e ->
             is_runtime_error (exc_type e) = false \/
             Py.contains "could not find the page-dimensions" (exc_msg e) = false) ->
  convert_document_to_markdown dl doc base st =
  ConvertDocx.convert_docx_to_markdown dl doc base st.
Proof. apply convert_document_as_docx. Qed.

Lemma convert_document_same_as_docx_witness :
  convert_document_to_markdown docx_dl "input/a.pdf" "a" C6_st =
  ConvertDocx.convert_docx_to_markdown docx_dl "input/a.pdf" "a" C6_st.
Proof.
  apply convert_document_same_as_docx.
  intros e H. left. revert H. vm_compute. intros H.
  first [discriminate H | injection H as <-; reflexivity].
Defined.

Lemma main_loop_as_docx dl :
  (forall fs path e, docling_convert dl fs path = Err e ->
     is_runtime_error (exc_type e) = false \/
     Py.contains "could not find the page-dimensions" (exc_msg e) = false) ->
  forall files sc fc st,
    main_loop dl files sc fc st = ConvertDocx.main_loop dl files sc fc st.
Proof.
  intros Hdl files. induction files as [|f rest IH]; intros sc fc st; [reflexivity|].
  cbn [main_loop ConvertDocx.main_loop]. unfold bind, path_exists. cbv zeta.
  destruct (fs_files (st_fs st) (Py.path_join INPUT_DIR f)); simpl.
  - rewrite convert_document_as_docx by (intros e; apply Hdl).
    destruct (ConvertDocx.convert_docx_to_markdown dl (Py.path_join INPUT_DIR f)
                (get_base_name f) st) as [st1 [[ok m]|e]]; [|reflexivity].
    unfold emit. destruct ok; apply IH.
  - unfold emit. apply IH.
Qed.

(** [main] of convert_documents.py against [main] of convert_docx.py: with
    a docling that never raises a [RuntimeError] about page dimensions, the
    two programs read the same configuration, make the same calls, leave
    the same files and return the same exit code. *)
Theorem main_same_as_docx dl st :
  (forall fs path e, docling_convert dl fs path = Err e ->
     is_runtime_error (exc_type e) = false \/
     Py.contains "could not find the page-dimensions" (exc_msg e) = false) ->
  main dl st = ConvertDocx.main dl st.
Proof.
  intros Hdl. unfold main, ConvertDocx.main, try_except, bind.
  destruct (parse_config st) as [st1 [files|e]]; [|reflexivity].
  destruct files as [|f rest]; [reflexivity|].
  rewrite (main_loop_as_docx dl Hdl). reflexivity.
Qed.

Lemma main_same_as_docx_witness :
  main docx_dl C6_st = ConvertDocx.main docx_dl C6_st.
Proof.
  apply main_same_as_docx.
  intros fs path e H. left. revert H. unfold docx_dl. cbn [docling_convert].
  destruct (fs_files fs path) as [[| |]|]; intros H;
    first [discriminate H | injection H as <-; reflexivity].
Defined.

(** Paths inside the output directory. *)
Definition in_output_dir (q : string) : bool := Py.startswith q "output/".

Lemma prefix_app (p s : string) : String.prefix p (p ++ s) = true.
Proof.
  induction p as [|c p IH]; simpl; [destruct s; reflexivity|].
  destruct (Ascii.ascii_dec c c) as [_|Hc]; [exact IH|contradiction Hc; reflexivity].
Qed.

Lemma patched_path_in_output base :
  Py.startswith base "/" = false ->
  in_output_dir (Py.path_join OUTPUT_DIR (base ++ "_patched.pdf")) = true.
Proof.
  intros Hb. unfold Py.path_join.
  destruct base as [|c t]; [reflexivity|].
  unfold Py.startswith in *. cbn [String.append String.eqb String.prefix] in *.
  destruct (Ascii.ascii_dec "/"%char c) as [_|Hc]; [destruct t; discriminate Hb|].
  exact (prefix_app "output/" (String c (t ++ "_patched.pdf"))).
Qed.

Lemma get_base_name_not_absolute file_name :
  Py.startswith (get_base_name file_name) "/" = false.
Proof.
  pose proof (get_base_name_no_slash file_name) as Hn.
  destruct (get_base_name file_name) as [|c t]; [reflexivity|].
  unfold Py.startswith. cbn [String.prefix].
  destruct (Ascii.ascii_dec "/"%char c) as [<-|_]; [|reflexivity].
  exfalso. apply Hn. left. reflexivity.
Qed.

Lemma patch_pdf_mediabox_frame src dst st st' r :
  patch_pdf_mediabox src dst st = (st', r) ->
  forall q, q <> dst -> fs_files (st_fs st') q = fs_files (st_fs st) q.
Proof.
  rewrite patch_pdf_mediabox_eq. cbv zeta.
  destruct (fs_files (st_fs st) src) as [[pages| |]|];
    [destruct (fs_faults (st_fs st) dst) as [[|]|]| | |];
    intros H; injection H as <- _; intros q Hq; simpl; try apply fs_write_other; auto.
Qed.



Section OutputOnly.

(** Docling's export (lines 195-245 of convert_documents.py, 109-161 of
    convert_docx.py) writes, moves and removes files of the output
    directory only. *)
Variable dl : Docling.
Hypothesis export_in_output : forall fs document base q,
  in_output_dir q = false ->
  fs_files (fst (export_markdown dl fs document base)) q = fs_files fs q.

Lemma convert_document_frame doc base st st' r :
  Py.startswith base "/" = false ->
  convert_document_to_markdown dl doc base st = (st', r) ->
  forall q, in_output_dir q = false -> fs_files (st_fs st') q = fs_files (st_fs st) q.
Proof.
  intros Hb.
  pose proof (patched_path_in_output base Hb) as Hpp.
  unfold convert_document_to_markdown, try_except, bind, ret, raise, convert, export.
  cbn [st_fs st_trace]. cbv zeta.
  destruct (docling_convert dl (st_fs st) doc) as [r0|e].
  - cbn [st_fs st_trace].
    pose proof (export_in_output (st_fs st) r0 base) as Hx.
    destruct (export_markdown dl (st_fs st) r0 base) as [fs' [n|e']];
      intros H; injection H as <- _; intros q Hq; exact (Hx q Hq).
  - destruct (is_runtime_error (exc_type e));
      [|intros H; injection H as <- _; intros q Hq; reflexivity].
    destruct (String.eqb (Py.lower (Py.path_suffix doc)) ".pdf"
              && Py.contains "could not find the page-dimensions" (exc_msg e));
      [|intros H; injection H as <- _; intros q Hq; reflexivity].
    destruct (patch_pdf_mediabox doc (Py.path_join OUTPUT_DIR (base ++ "_patched.pdf"))
                {| st_fs := st_fs st; st_trace := (st_trace st ++ [EvConvert doc])%list |})
      as [st2 res] eqn:Hp.
    pose proof (patch_pdf_mediabox_frame _ _ _ _ _ Hp) as Hf. cbn [st_fs] in Hf.
    assert (Hf' : forall q, in_output_dir q = false ->
                    fs_files (st_fs st2) q = fs_files (st_fs st) q).
    { intros q Hq. apply Hf. intros ->. rewrite Hpp in Hq. discriminate Hq. }
    destruct res as [[[|] m]|e2]; cbv beta iota delta [negb]; cbn [st_fs st_trace];
      [|intros H; injection H as <- _; exact Hf'|intros H; injection H as <- _; exact Hf'].
    destruct (docling_convert dl (st_fs st2) (Py.path_join OUTPUT_DIR (base ++ "_patched.pdf")))
      as [r1|e1]; cbv beta iota delta [negb]; cbn [st_fs st_trace];
      [|intros H; injection H as <- _; exact Hf'].
    pose proof (export_in_output (st_fs st2) r1 base) as Hx.
    destruct (export_markdown dl (st_fs st2) r1 base) as [fs' [n|e']];
      intros H; injection H as <- _; intros q Hq;
      rewrite <- (Hf' q Hq); exact (Hx q Hq).
Qed.

Lemma convert_docx_frame doc base st st' r :
  ConvertDocx.convert_docx_to_markdown dl doc base st = (st', r) ->
  forall q, in_output_dir q = false -> fs_files (st_fs st') q = fs_files (st_fs st) q.
Proof.
  unfold ConvertDocx.convert_docx_to_markdown, try_except, bind, ret, convert, export.
  cbn [st_fs st_trace].
  destruct (docling_convert dl (st_fs st) doc) as [r0|e];
    [|intros H; injection H as <- _; intros q Hq; reflexivity].
  cbn [st_fs st_trace].
  pose proof (export_in_output (st_fs st) r0 base) as Hx.
  destruct (export_markdown dl (st_fs st) r0 base) as [fs' [n|e']];
    intros H; injection H as <- _; intros q Hq; exact (Hx q Hq).
Qed.

Lemma main_loop_frame files : forall sc fc st st' r,
  main_loop dl files sc fc st = (st', r) ->
  forall q, in_output_dir q = false -> fs_files (st_fs st') q = fs_files (st_fs st) q.
Proof.
  induction files as [|file_name rest IH]; intros sc fc st st' r.
  - intros H. injection H as <- _. reflexivity.
  - simpl. unfold bind at 1, path_exists.
    destruct (fs_files (st_fs st) (Py.path_join INPUT_DIR file_name)); simpl.
    + unfold bind.
      destruct (convert_document_to_markdown dl (Py.path_join INPUT_DIR file_name)
                  (get_base_name file_name) st) as [st1 [[ok m]|e]] eqn:Hc.
      * pose proof (convert_document_frame _ _ _ _ _ (get_base_name_not_absolute file_name) Hc)
          as Hf.
        unfold emit. destruct ok; intros H q Hq; rewrite (IH _ _ _ _ _ H q Hq);
          exact (Hf q Hq).
      * intros H. injection H as <- _.
        exact (convert_document_frame _ _ _ _ _ (get_base_name_not_absolute file_name) Hc).
    + unfold bind, emit. intros H q Hq. exact (IH _ _ _ _ _ H q Hq).
Qed.

Lemma docx_main_loop_frame files : forall sc fc st st' r,
  ConvertDocx.main_loop dl files sc fc st = (st', r) ->
  forall q, in_output_dir q = false -> fs_files (st_fs st') q = fs_files (st_fs st) q.
Proof.
  induction files as [|file_name rest IH]; intros sc fc st st' r.
  - intros H. injection H as <- _. reflexivity.
  - simpl. unfold bind at 1, path_exists.
    destruct (fs_files (st_fs st) (Py.path_join INPUT_DIR file_name)); simpl.
    + unfold bind.
      destruct (ConvertDocx.convert_docx_to_markdown dl (Py.path_join INPUT_DIR file_name)
                  (get_base_name file_name) st) as [st1 [[ok m]|e]] eqn:Hc.
      * pose proof (convert_docx_frame _ _ _ _ _ Hc) as Hf.
        unfold emit. destruct ok; intros H q Hq; rewrite (IH _ _ _ _ _ H q Hq);
          exact (Hf q Hq).
      * intros H. injection H as <- _. exact (convert_docx_frame _ _ _ _ _ Hc).
    + unfold bind, emit. intros H q Hq. exact (IH _ _ _ _ _ H q Hq).
Qed.

Lemma parse_config_state st : fst (parse_config st) = st.
Proof.
  unfold parse_config.
  destruct (fs_files (st_fs st) CONFIG_FILE) as [[| sections |]|]; try reflexivity.
  destruct (find _ sections) as [[]|]; reflexivity.
Qed.

(** [main] of both programs changes no file outside [output/]: the
    configuration and the documents under [input/] are left as they were,
    whatever the outcome. The only write of convert_documents.py itself,
    the repaired copy, goes to [output/<base>_patched.pdf]. *)
Theorem main_writes_only_output st st' code :
  (main dl st = (st', code) \/ ConvertDocx.main dl st = (st', code)) ->
  forall q, in_output_dir q = false -> fs_files (st_fs st') q = fs_files (st_fs st) q.
Proof.
  intros Hrun q Hq.
  pose proof (parse_config_state st) as Hcfg.
  destruct Hrun as [H|H]; unfold main, ConvertDocx.main, try_except, bind in H;
    destruct (parse_config st) as [st1 [files|e]]; cbn [fst] in Hcfg; subst st1;
    [|injection H as <- _; reflexivity|..|injection H as <- _; reflexivity];
    (destruct files as [|f rest]; [injection H as <- _; reflexivity|]).
  - destruct (main_loop dl (f :: rest) 0 0 st) as [st2 [[sc fc]|e]] eqn:Hl;
      injection H as <- _; exact (main_loop_frame _ _ _ _ _ _ Hl q Hq).
  - destruct (ConvertDocx.main_loop dl (f :: rest) 0 0 st) as [st2 [[sc fc]|e]] eqn:Hl;
      injection H as <- _; exact (docx_main_loop_frame _ _ _ _ _ _ Hl q Hq).
Qed.



End OutputOnly.

Lemma main_writes_only_output_witness :
  fs_files (st_fs (fst (main C5_dl C6_st))) "input/a.pdf" =
  fs_files (st_fs C6_st) "input/a.pdf".
Proof.
  apply (main_writes_only_output C5_dl (fun fs document base q _ => eq_refl) C6_st
           (fst (main C5_dl C6_st)) (snd (main C5_dl C6_st))).
  - left. reflexivity.
  - reflexivity.
Defined.


